(** * Students REST API: the data-access layer and its HTTP routes

    A shallow embedding of [main.py]: the [students] table, the unit of work
    that every [StudentDB] method opens with [with self.Session() as session],
    the ten methods of [StudentDB], and the five FastAPI routes.

    Modelling choices, all local to this file:
    - the table is the list of its rows in rowid order;
    - a [Float] value is an exact rational ([Q]): rounding error of the
      binary representation, infinities and NaN payloads are outside the
      model (a missing cell of a data frame is the separate value [PNaN]);
    - an integer primary key is a [Z];
    - a method is a function from the table before the call to the value it
      returns (or the exception it raises) and the table after the call. *)

From Stdlib Require Import List ZArith QArith Qround Lqa String DecimalString Bool Lia.
Import ListNotations.

Local Open Scope string_scope.
Local Open Scope list_scope.
Local Open Scope Z_scope.

(** ** The [students] table *)

(** One row of [students]; every column is declared [nullable=False]. *)
Record Student : Type := mkStudent {
  id : Z;
  last_name : string;
  first_name : string;
  faculty : string;
  course : string;
  grade : Q
}.

Definition Store : Type := list Student.

(** The five columns that are not the primary key. *)
Inductive attr : Type :=
| k_last_name | k_first_name | k_faculty | k_course | k_grade.

Definition attr_eqb (a b : attr) : bool :=
  match a, b with
  | k_last_name, k_last_name | k_first_name, k_first_name
  | k_faculty, k_faculty | k_course, k_course | k_grade, k_grade => true
  | _, _ => false
  end.

(** Python values that reach an attribute of a [Student] object. *)
Inductive pyval : Type :=
| PNone
| PStr (s : string)
| PInt (z : Z)
| PFloat (q : Q)
| PNaN.

(** Exceptions the modelled code can raise. *)
Inductive exn : Type :=
| ValueError
| StatementError
| IntegrityError
| InvalidRequestError
| DetachedInstanceError
| HTTPException (status_code : Z) (detail : string).

Inductive outcome (A : Type) : Type :=
| Returned (a : A)
| Raised (e : exn).
Arguments Returned {A} a.
Arguments Raised {A} e.

(** ** Pydantic schemas *)

Record StudentCreate : Type := mkStudentCreate {
  c_last_name : string;
  c_first_name : string;
  c_faculty : string;
  c_course : string;
  c_grade : Q
}.

(** [StudentUpdate]: every field is [Optional] with default [None]; pydantic
    remembers which fields the request supplied.  [None] is a field that was
    not supplied, [Some None] a field supplied as [null], [Some (Some v)] a
    field supplied with the value [v]. *)
Record StudentUpdate : Type := mkStudentUpdate {
  u_last_name : option (option string);
  u_first_name : option (option string);
  u_faculty : option (option string);
  u_course : option (option string);
  u_grade : option (option Q)
}.

Definition py_str (o : option string) : pyval :=
  match o with Some s => PStr s | None => PNone end.

Definition py_float (o : option Q) : pyval :=
  match o with Some q => PFloat q | None => PNone end.

(** [data.dict()] of a [StudentCreate]. *)
Definition create_dict (data : StudentCreate) : list (attr * pyval) :=
  [ (k_last_name, PStr (c_last_name data));
    (k_first_name, PStr (c_first_name data));
    (k_faculty, PStr (c_faculty data));
    (k_course, PStr (c_course data));
    (k_grade, PFloat (c_grade data)) ].

Definition item {A : Type} (k : attr) (conv : A -> pyval) (f : option A)
  : list (attr * pyval) :=
  match f with Some v => [(k, conv v)] | None => [] end.

(** [data.dict(exclude_unset=True)] of a [StudentUpdate]: the supplied fields,
    in declaration order, an explicit [null] included. *)
Definition update_dict (data : StudentUpdate) : list (attr * pyval) :=
  item k_last_name py_str (u_last_name data)
  ++ item k_first_name py_str (u_first_name data)
  ++ item k_faculty py_str (u_faculty data)
  ++ item k_course py_str (u_course data)
  ++ item k_grade py_float (u_grade data).

(** ** Coercions done by the database driver

    They belong to Python and SQLite, not to [main.py], and are kept
    abstract: [float_of_str] is Python's [float] on a string ([None] where it
    raises), [str_of_int] and [str_of_float] are the conversions SQLite
    applies when a number is stored in a column of TEXT affinity. *)
Class Driver : Type := mkDriver {
  float_of_str : string -> option Q;
  str_of_int : Z -> string;
  str_of_float : Q -> string
}.

(** ** Exceptions as an error monad *)

Definition obind {A B : Type} (o : outcome A) (f : A -> outcome B) : outcome B :=
  match o with
  | Returned a => f a
  | Raised e => Raised e
  end.

Declare Scope outcome_scope.
Delimit Scope outcome_scope with outcome.
Notation "'try' x <- c ; k" := (obind c (fun x => k))
  (at level 10, x name, c at level 100, k at level 200) : outcome_scope.

(** A [nullable=False] column refuses NULL. *)
Definition not_null {A : Type} (o : option A) : outcome A :=
  match o with
  | Some a => Returned a
  | None => Raised IntegrityError
  end.

Section Binding.
Context {drv : Driver}.
Local Open Scope outcome_scope.

(** Bind processor of a [Float] column: [float(value)], [None] and a NaN
    both reaching the database as NULL. *)
Definition to_float (v : pyval) : outcome (option Q) :=
  match v with
  | PNone => Returned None
  | PStr s =>
      match float_of_str s with
      | Some q => Returned (Some q)
      | None => Raised StatementError
      end
  | PInt z => Returned (Some (inject_Z z))
  | PFloat q => Returned (Some q)
  | PNaN => Returned None
  end.

(** What a [String] column stores for a Python value; [None] is NULL. *)
Definition text_param (v : pyval) : option string :=
  match v with
  | PNone => None
  | PStr s => Some s
  | PInt z => Some (str_of_int z)
  | PFloat q => Some (str_of_float q)
  | PNaN => None
  end.

(** The last value assigned to attribute [k] in [kw], if any. *)
Fixpoint assigned (kw : list (attr * pyval)) (k : attr) : option pyval :=
  match kw with
  | [] => None
  | (k', v) :: kw' =>
      match assigned kw' k with
      | Some later => Some later
      | None => if attr_eqb k' k then Some v else None
      end
  end.

(** Value of attribute [k] of an object built from the keyword arguments
    [kw]: an attribute that was not given reads [None]. *)
Definition getattr (kw : list (attr * pyval)) (k : attr) : pyval :=
  match assigned kw k with
  | Some v => v
  | None => PNone
  end.

(** [INSERT INTO students (...) VALUES (...)] for one object, the rowid
    being [i]. *)
Definition insert_row (i : Z) (kw : list (attr * pyval)) : outcome Student :=
  try g <- to_float (getattr kw k_grade);
  try ln <- not_null (text_param (getattr kw k_last_name));
  try fn <- not_null (text_param (getattr kw k_first_name));
  try fa <- not_null (text_param (getattr kw k_faculty));
  try co <- not_null (text_param (getattr kw k_course));
  try g' <- not_null g;
  Returned (mkStudent i ln fn fa co g').

(** One [SET column = ?] of an UPDATE. *)
Definition bind_column (k : attr) (v : pyval) : outcome (Student -> Student) :=
  match k with
  | k_last_name =>
      try s <- not_null (text_param v);
      Returned (fun r => mkStudent (id r) s (first_name r) (faculty r) (course r) (grade r))
  | k_first_name =>
      try s <- not_null (text_param v);
      Returned (fun r => mkStudent (id r) (last_name r) s (faculty r) (course r) (grade r))
  | k_faculty =>
      try s <- not_null (text_param v);
      Returned (fun r => mkStudent (id r) (last_name r) (first_name r) s (course r) (grade r))
  | k_course =>
      try s <- not_null (text_param v);
      Returned (fun r => mkStudent (id r) (last_name r) (first_name r) (faculty r) s (grade r))
  | k_grade =>
      try g <- to_float v;
      try g' <- not_null g;
      Returned (fun r => mkStudent (id r) (last_name r) (first_name r) (faculty r) (course r) g')
  end.

(** The [SET] clause for the attributes assigned since the object was
    loaded (the keys of a dict are distinct, so each column occurs once). *)
Fixpoint bind_updates (l : list (attr * pyval)) : outcome (Student -> Student) :=
  match l with
  | [] => Returned (fun r => r)
  | (k, v) :: l' =>
      try f <- bind_column k v;
      try g <- bind_updates l';
      Returned (fun r => g (f r))
  end.
End Binding.

(** ** The table as SQLite sees it *)

(** Largest rowid in use. *)
Fixpoint max_rowid (db : Store) : option Z :=
  match db with
  | [] => None
  | r :: db' =>
      match max_rowid db' with
      | None => Some (id r)
      | Some m => Some (Z.max (id r) m)
      end
  end.

(** Rowid given to an inserted row: [INTEGER PRIMARY KEY] without the
    AUTOINCREMENT keyword, so one more than the largest in use, 1 in an
    empty table. *)
Definition next_rowid (db : Store) : Z :=
  match max_rowid db with
  | None => 1
  | Some m => m + 1
  end.

(** [SELECT ... WHERE id = i]. *)
Definition select_by_id (i : Z) (db : Store) : option Student :=
  find (fun r => id r =? i) db.

(** [DELETE FROM students WHERE id = i]. *)
Definition delete_by_id (i : Z) (db : Store) : Store :=
  filter (fun r => negb (id r =? i)) db.

(** [UPDATE students SET ... WHERE id = i]. *)
Definition update_by_id (i : Z) (f : Student -> Student) (db : Store) : Store :=
  map (fun r => if id r =? i then f r else r) db.

(** [SELECT DISTINCT]: each value once, at its first occurrence. *)
Fixpoint distinct (l : list string) : list string :=
  match l with
  | [] => []
  | x :: l' => x :: filter (fun y => negb (y =? x)%string) (distinct l')
  end.

(** [AVG(...)]: NULL over no rows. *)
Definition sql_avg (l : list Q) : option Q :=
  match l with
  | [] => None
  | _ => Some (fold_right Qplus 0%Q l / inject_Z (Z.of_nat (List.length l)))%Q
  end.

Definition Qltb (x y : Q) : bool := negb (Qle_bool y x).

(** ** Python built-ins *)

(** Nearest integer, ties to the even one. *)
Definition round_half_even (x : Q) : Z :=
  let f := Qfloor x in
  match (x - inject_Z f ?= 1 # 2)%Q with
  | Lt => f
  | Eq => if Z.even f then f else f + 1
  | Gt => f + 1
  end.

(** [round(x, 2)]. *)
Definition round2 (x : Q) : Q :=
  Qred (inject_Z (round_half_even (x * 100)) / 100).

(** Truth value of [avg_grade], which is [None] or a float. *)
Definition truthy (v : option Q) : bool :=
  match v with
  | None => false
  | Some x => negb (Qeq_bool x 0)
  end.

(** ** The unit of work

    [with self.Session() as session] opens a session on the table as
    committed.  The session tracks the objects it was given or has loaded;
    nothing reaches the table before [session.commit()], and what is not
    committed when the block is left is discarded. *)

(** An object tracked by the session: its primary key once the row exists,
    the row it was last loaded from ([None] when never loaded or expired),
    and the attribute assignments not yet written. *)
Record Entity : Type := mkEntity {
  pk : option Z;
  loaded : option Student;
  pending : list (attr * pyval);
  deleted : bool
}.

Record Session : Type := mkSession {
  database : Store;
  entities : list Entity
}.

(** A Python variable bound to a tracked object. *)
Definition handle : Type := nat.

(** Code that runs on a state of type [S] and returns or raises. *)
Definition M (S A : Type) : Type := S -> outcome A * S.

Definition ret {S A : Type} (a : A) : M S A := fun s => (Returned a, s).

Definition raise {S A : Type} (e : exn) : M S A := fun s => (Raised e, s).

Definition bind {S A B : Type} (m : M S A) (f : A -> M S B) : M S B :=
  fun s =>
    match m s with
    | (Returned a, s') => f a s'
    | (Raised e, s') => (Raised e, s')
    end.

Declare Scope code_scope.
Delimit Scope code_scope with code.
Notation "x <- c ;; k" := (bind c (fun x => k))
  (at level 61, c at next level, right associativity) : code_scope.
Notation "c ;; k" := (bind c (fun _ => k))
  (at level 61, right associativity) : code_scope.

(** [for x in l: body(x)]. *)
Fixpoint for_each {S A : Type} (l : list A) (body : A -> M S unit) : M S unit :=
  match l with
  | [] => ret tt
  | x :: l' => bind (body x) (fun _ => for_each l' body)
  end.

Fixpoint set_nth {A : Type} (n : nat) (x : A) (l : list A) : list A :=
  match l, n with
  | [], _ => []
  | _ :: l', O => x :: l'
  | y :: l', S n' => y :: set_nth n' x l'
  end.

Definition expire (e : Entity) : Entity :=
  mkEntity (pk e) None (pending e) (deleted e).

Section UnitOfWork.
Context {drv : Driver}.
Local Open Scope outcome_scope.

(** Statement emitted for one tracked object, run on the table [w] of the
    open transaction: an INSERT for an object that has no row yet, a
    DELETE for one marked deleted, an UPDATE of the assigned columns
    otherwise. *)
Definition flush_entity (w : Store) (e : Entity) : outcome (Store * Entity) :=
  match pk e with
  | None =>
      try r <- insert_row (next_rowid w) (pending e);
      Returned (w ++ [r], mkEntity (Some (id r)) None [] false)
  | Some i =>
      if deleted e then Returned (delete_by_id i w, e)
      else
        try f <- bind_updates (pending e);
        Returned (update_by_id i f w, mkEntity (Some i) None [] false)
  end.

Fixpoint flush (w : Store) (es : list Entity) : outcome (Store * list Entity) :=
  match es with
  | [] => Returned (w, [])
  | e :: es' =>
      try we <- flush_entity w e;
      try wes <- flush (fst we) es';
      Returned (fst wes, snd we :: snd wes)
  end.

(** [session.add(obj)] for [obj = Student(...)] built from keyword
    arguments [kw]. *)
Definition session_add (kw : list (attr * pyval)) : M Session handle :=
  fun s =>
    (Returned (List.length (entities s)),
     mkSession (database s) (entities s ++ [mkEntity None None kw false])).

(** [session.get(Student, i)]. *)
Definition session_get (i : Z) : M Session (option handle) :=
  fun s =>
    match select_by_id i (database s) with
    | None => (Returned None, s)
    | Some r =>
        (Returned (Some (List.length (entities s))),
         mkSession (database s) (entities s ++ [mkEntity (Some i) (Some r) [] false]))
    end.

Definition modify (h : handle) (f : Entity -> Entity) : M Session unit :=
  fun s =>
    match nth_error (entities s) h with
    | None => (Raised InvalidRequestError, s)
    | Some e => (Returned tt, mkSession (database s) (set_nth h (f e) (entities s)))
    end.

(** [setattr(obj, k, v)]. *)
Definition setattr (h : handle) (kv : attr * pyval) : M Session unit :=
  modify h (fun e => mkEntity (pk e) (loaded e) (pending e ++ [kv]) (deleted e)).

(** [session.delete(obj)]. *)
Definition session_delete (h : handle) : M Session unit :=
  modify h (fun e => mkEntity (pk e) (loaded e) (pending e) true).

(** [session.commit()]: the pending statements run in one transaction;
    if one fails nothing is written and the exception propagates.  The
    objects are expired afterwards. *)
Definition session_commit : M Session unit :=
  fun s =>
    match flush (database s) (entities s) with
    | Returned (w, es) => (Returned tt, mkSession w (map expire es))
    | Raised e => (Raised e, s)
    end.

(** [session.refresh(obj)]: reload the attributes from the row. *)
Definition session_refresh (h : handle) : M Session unit :=
  fun s =>
    match nth_error (entities s) h with
    | Some (mkEntity (Some i) _ p d) =>
        match select_by_id i (database s) with
        | Some r =>
            (Returned tt,
             mkSession (database s) (set_nth h (mkEntity (Some i) (Some r) p d) (entities s)))
        | None => (Raised InvalidRequestError, s)
        end
    | _ => (Raised InvalidRequestError, s)
    end.

(** The attributes of an object as its caller reads them once the session
    is closed: those last loaded; an expired object cannot be read. *)
Definition detached (h : handle) : M Session Student :=
  fun s =>
    match nth_error (entities s) h with
    | Some (mkEntity _ (Some r) _ _) => (Returned r, s)
    | _ => (Raised DetachedInstanceError, s)
    end.

(** [session.scalars(select(Student).where(...)).all()]. *)
Definition session_scalars (whereclause : Student -> bool) : M Session (list Student) :=
  fun s => (Returned (filter whereclause (database s)), s).

(** [session.execute(select(column).distinct())], one value per row. *)
Definition session_execute_distinct (column : Student -> string) : M Session (list string) :=
  fun s => (Returned (distinct (map column (database s))), s).

(** [session.scalar(select(func.avg(column)).where(...))]. *)
Definition session_scalar_avg (column : Student -> Q) (whereclause : Student -> bool)
  : M Session (option Q) :=
  fun s => (Returned (sql_avg (map column (filter whereclause (database s)))), s).

(** Run the body of a [with self.Session() as session] block on the table
    [db]: the value returned or the exception raised, and the table as
    committed when the block is left. *)
Definition with_session {A : Type} (body : M Session A) : M Store A :=
  fun db => let (r, s) := body (mkSession db []) in (r, database s).
End UnitOfWork.

(** ** Data frames *)

(** A pandas data frame: its column labels and its rows of cells. *)
Record DataFrame (L : Type) : Type := mkDataFrame {
  columns : list L;
  rows : list (list pyval)
}.
Arguments mkDataFrame {L} columns rows.
Arguments columns {L} d.
Arguments rows {L} d.

(** [df.columns = labels]: the number of labels must be the number of
    columns of the frame. *)
Definition set_columns {L L' : Type} (df : DataFrame L) (labels : list L')
  : outcome (DataFrame L') :=
  if (List.length labels =? List.length (columns df))%nat
  then Returned (mkDataFrame labels (rows df))
  else Raised ValueError.

(** [row.to_dict()] for a row of [df.iterrows()]. *)
Definition to_dict {L : Type} (df : DataFrame L) (row : list pyval) : list (L * pyval) :=
  combine (columns df) row.


(** ** [class StudentDB] *)

Module StudentDB.
Section Methods.
Context {drv : Driver}.
Local Open Scope code_scope.

(** [insert_from_csv], from the frame [df = pd.read_csv(csv_path)] on. *)
Definition insert_from_csv (df : DataFrame string) : M Store unit :=
  match set_columns df [k_last_name; k_first_name; k_faculty; k_course; k_grade] with
  | Raised e => raise e
  | Returned df' =>
      with_session
        (for_each (rows df') (fun row => _ <- session_add (to_dict df' row) ;; ret tt) ;;
         session_commit)
  end.

Definition create_student (data : StudentCreate) : M Store Student :=
  with_session
    (student <- session_add (create_dict data) ;;
     session_commit ;;
     session_refresh student ;;
     detached student).

Definition get_all_students : M Store (list Student) :=
  with_session (session_scalars (fun _ => true)).

Definition get_student (student_id : Z) : M Store (option Student) :=
  with_session
    (found <- session_get student_id ;;
     match found with
     | None => ret None
     | Some student => r <- detached student ;; ret (Some r)
     end).

Definition update_student (student_id : Z) (data : StudentUpdate)
  : M Store (option Student) :=
  with_session
    (found <- session_get student_id ;;
     match found with
     | None => ret None
     | Some student =>
         for_each (update_dict data) (setattr student) ;;
         session_commit ;;
         session_refresh student ;;
         r <- detached student ;;
         ret (Some r)
     end).

Definition delete_student (student_id : Z) : M Store bool :=
  with_session
    (found <- session_get student_id ;;
     match found with
     | None => ret false
     | Some student =>
         session_delete student ;;
         session_commit ;;
         ret true
     end).

Definition get_students_by_faculty (faculty_name : string)
  : M Store (list Student) :=
  with_session (session_scalars (fun r => (faculty r =? faculty_name)%string)).

Definition get_unique_courses : M Store (list string) :=
  with_session (session_execute_distinct course).

Definition get_avg_grade_by_faculty (faculty_name : string)
  : M Store (option Q) :=
  with_session
    (avg_grade <- session_scalar_avg grade (fun r => (faculty r =? faculty_name)%string) ;;
     ret (if truthy avg_grade
          then match avg_grade with Some a => Some (round2 a) | None => None end
          else None)).

Definition get_students_with_low_grade (course_name : string)
  : M Store (list Student) :=
  with_session
    (session_scalars (fun r => (course r =? course_name)%string && Qltb (grade r) 30)).
End Methods.
End StudentDB.

(** ** The FastAPI application *)

Local Set Warnings "-register-all".

Inductive json : Type :=
| JInt (z : Z)
| JNum (q : Q)
| JStr (s : string)
| JArr (l : list json)
| JObj (members : list (string * json)).

Inductive content : Type :=
| Json (j : json)
| PlainText (s : string).

Record Response : Type := mkResponse {
  status : Z;
  body : content
}.

(** Serialisation through [response_model=StudentOut]. *)
Definition StudentOut (r : Student) : json :=
  JObj [ ("id", JInt (id r));
         ("last_name", JStr (last_name r));
         ("first_name", JStr (first_name r));
         ("faculty", JStr (faculty r));
         ("course", JStr (course r));
         ("grade", JNum (grade r)) ].

(** What FastAPI answers for a route function that returned a value or
    raised: 200 with the serialised value, the status and [detail] of an
    [HTTPException], 500 for any other exception. *)
Definition respond {A : Type} (model : A -> json) (o : outcome A) : Response :=
  match o with
  | Returned a => mkResponse 200 (Json (model a))
  | Raised (HTTPException code detail) =>
      mkResponse code (Json (JObj [("detail", JStr detail)]))
  | Raised _ => mkResponse 500 (PlainText "Internal Server Error")
  end.

Module App.
Section Routes.
Context {drv : Driver}.
Local Open Scope code_scope.

(** The route functions; the state they run on is the table behind the
    module-level [db = StudentDB()]. *)

Definition create_student (student : StudentCreate) : M Store Student :=
  StudentDB.create_student student.


Definition get_student (student_id : Z) : M Store Student :=
  student <- StudentDB.get_student student_id ;;
  match student with
  | None => raise (HTTPException 404 "Student not found")
  | Some student => ret student
  end.

Definition update_student (student_id : Z) (data : StudentUpdate) : M Store Student :=
  student <- StudentDB.update_student student_id data ;;
  match student with
  | None => raise (HTTPException 404 "Student not found")
  | Some student => ret student
  end.

Definition delete_student (student_id : Z) : M Store json :=
  ok <- StudentDB.delete_student student_id ;;
  if negb ok
  then raise (HTTPException 404 "Student not found")
  else ret (JObj [("status", JStr "deleted")]).

(** A request served by a route function: the response and the table
    afterwards. *)
Definition serve {A : Type} (model : A -> json) (route : M Store A) (db : Store)
  : Response * Store :=
  let (o, db') := route db in (respond model o, db').

(** [POST /students/] *)
Definition POST_students (student : StudentCreate) : Store -> Response * Store :=
  serve StudentOut (create_student student).


(** [GET /students/{student_id}] *)
Definition GET_student (student_id : Z) : Store -> Response * Store :=
  serve StudentOut (get_student student_id).

(** [PUT /students/{student_id}] *)
Definition PUT_student (student_id : Z) (data : StudentUpdate)
  : Store -> Response * Store :=
  serve StudentOut (update_student student_id data).

(** [DELETE /students/{student_id}] *)
Definition DELETE_student (student_id : Z) : Store -> Response * Store :=
  serve (fun j => j) (delete_student student_id).
End Routes.
End App.


(** ** Vocabulary of the statements *)

(** Some field of the request body was supplied as [null]. *)
Definition is_null {A : Type} (f : option (option A)) : bool :=
  match f with Some None => true | _ => false end.

Definition has_null (data : StudentUpdate) : bool :=
  is_null (u_last_name data) || is_null (u_first_name data)
  || is_null (u_faculty data) || is_null (u_course data)
  || is_null (u_grade data).




(** The request body [{}]. *)
Definition empty_update : StudentUpdate :=
  mkStudentUpdate None None None None None.

(** The response to a request for an id that has no record. *)
Definition not_found : Response :=
  mkResponse 404 (Json (JObj [("detail", JStr "Student not found")])).

Definition ok (j : json) : Response := mkResponse 200 (Json j).

Section RowVocabulary.
Context {drv : Driver}.




(** The record [r] holds the five cells of [row], in column order. *)
Definition positional (row : list pyval) (r : Student) : Prop :=
  text_param (nth 0 row PNone) = Some (last_name r)
  /\ text_param (nth 1 row PNone) = Some (first_name r)
  /\ text_param (nth 2 row PNone) = Some (faculty r)
  /\ text_param (nth 3 row PNone) = Some (course r)
  /\ to_float (nth 4 row PNone) = Returned (Some (grade r)).
End RowVocabulary.

(** A session program that leaves the committed table as it found it. *)
Definition preserves {A : Type} (m : M Session A) : Prop :=
  forall s, database (snd (m s)) = database s.

(** Arithmetic mean of a non-empty list. *)
Definition mean (l : list Q) : Q :=
  (fold_right Qplus 0 l / inject_Z (Z.of_nat (List.length l)))%Q.

(** The grades of the records of [db] whose faculty is [name]. *)
Definition grades_of (name : string) (db : Store) : list Q :=
  map grade (filter (fun r => (faculty r =? name)%string) db).

(** ** Sample data *)

(** A driver for the examples: it reads integer literals and prints
    integers in decimal. *)
Definition sample_driver : Driver :=
  mkDriver
    (fun s => option_map (fun n => inject_Z (Z.of_int n)) (NilEmpty.int_of_string s))
    (fun z => NilZero.string_of_int (Z.to_int z))
    (fun q => NilZero.string_of_int (Z.to_int (Qfloor q)) ++ ".0")%string.

Definition ivanov : Student := mkStudent 1 "Ivanov" "Petr" "CS" "2024" (171 # 2).

Definition petrov : Student := mkStudent 2 "Petrov" "Ivan" "CS" "2023" (25 # 1).

Definition zero_graded : Student := mkStudent 1 "Sidorov" "Oleg" "Math" "2024" 0.

(** The request body [{"grade": null}]. *)
Definition null_grade : StudentUpdate :=
  mkStudentUpdate None None None None (Some None).

Definition sample_frame : DataFrame string :=
  mkDataFrame ["surname"; "name"; "faculty"; "course"; "grade"]
              [ [PStr "Ivanov"; PStr "Petr"; PStr "CS"; PInt 2024; PFloat (171 # 2)];
                [PStr "Petrov"; PStr "Ivan"; PStr "CS"; PInt 2023; PInt 25] ].



(** ** Vocabulary of the further statements *)

(** The primary-key constraint as the methods maintain it: no two rows
    share an id, and every id is at least 1. *)
Definition primary_key (db : Store) : Prop :=
  NoDup (map id db) /\ Forall (fun r => 1 <= id r) db.

(** Every record that can be read from [db] can be read from [db'], and is
    the same record. *)
Definition keeps_records (db db' : Store) : Prop :=
  forall j r, select_by_id j db = Some r -> select_by_id j db' = Some r.

(** A request body that changes the name and the grade. *)
Definition rename_and_regrade : StudentUpdate :=
  mkStudentUpdate (Some (Some "Ivanova")) None None None (Some (Some (90 # 1))).

Definition sidorov : Student := mkStudent 3 "Sidorov" "Oleg" "Math" "2023" (12 # 1).


(** * Properties *)

(** ** The table *)

Lemma max_rowid_bound (db : Store) (r : Student) :
  In r db -> exists m, max_rowid db = Some m /\ id r <= m.
Proof.
  induction db as [|x db IH]; simpl; [tauto|].
  intros [->|Hin].
  - destruct (max_rowid db) as [m|]; eexists; split; try reflexivity; lia.
  - destruct (IH Hin) as (m & -> & Hle).
    eexists; split; [reflexivity|lia].
Qed.

Lemma next_rowid_fresh (db : Store) (r : Student) :
  In r db -> id r < next_rowid db.
Proof.
  intros Hin. unfold next_rowid.
  destruct (max_rowid_bound db r Hin) as (m & -> & Hle). lia.
Qed.

Lemma select_by_id_In (i : Z) (db : Store) (r : Student) :
  select_by_id i db = Some r -> In r db /\ id r = i.
Proof.
  unfold select_by_id. intros H.
  apply find_some in H. destruct H as [Hin Heq].
  split; [assumption|]. now apply Z.eqb_eq.
Qed.

Lemma select_by_id_next (db : Store) :
  select_by_id (next_rowid db) db = None.
Proof.
  destruct (select_by_id (next_rowid db) db) as [r|] eqn:E; [|reflexivity].
  apply select_by_id_In in E. destruct E as [Hin Heq].
  apply next_rowid_fresh in Hin. lia.
Qed.

Lemma select_by_id_app (i : Z) (db db' : Store) :
  select_by_id i (db ++ db') =
  match select_by_id i db with
  | Some r => Some r
  | None => select_by_id i db'
  end.
Proof.
  unfold select_by_id.
  induction db as [|x db IH]; simpl; [reflexivity|].
  destruct (id x =? i); [reflexivity|exact IH].
Qed.

Lemma select_inserted (db : Store) (r : Student) :
  id r = next_rowid db -> select_by_id (id r) (db ++ [r]) = Some r.
Proof.
  intros E. rewrite select_by_id_app, E, select_by_id_next.
  unfold select_by_id. simpl. rewrite E, Z.eqb_refl. reflexivity.
Qed.

Lemma select_deleted (i : Z) (db : Store) :
  select_by_id i (delete_by_id i db) = None.
Proof.
  unfold select_by_id, delete_by_id.
  induction db as [|x db IH]; simpl; [reflexivity|].
  destruct (id x =? i) eqn:E; simpl; [exact IH|].
  rewrite E. exact IH.
Qed.


Lemma select_other_updated (i j : Z) (f : Student -> Student) (db : Store) :
  (forall r, id (f r) = id r) -> j <> i ->
  select_by_id j (update_by_id i f db) = select_by_id j db.
Proof.
  intros Hid Hne. unfold select_by_id, update_by_id.
  induction db as [|x db IH]; simpl; [reflexivity|].
  destruct (id x =? i) eqn:E.
  - rewrite Hid. apply Z.eqb_eq in E.
    destruct (id x =? j) eqn:E'; [apply Z.eqb_eq in E'; lia|exact IH].
  - destruct (id x =? j); [reflexivity|exact IH].
Qed.

Lemma update_by_id_nothing (i : Z) (db : Store) :
  update_by_id i (fun r => r) db = db.
Proof.
  unfold update_by_id.
  induction db as [|x db IH]; simpl; [reflexivity|].
  rewrite IH. destruct (id x =? i); reflexivity.
Qed.

Lemma Qltb_lt (x y : Q) : Qltb x y = true <-> (x < y)%Q.
Proof.
  unfold Qltb. rewrite negb_true_iff.
  split; intros H.
  - apply Qnot_le_lt. intros Hle. apply Qle_bool_iff in Hle. congruence.
  - destruct (Qle_bool y x) eqn:E; [|reflexivity].
    apply Qle_bool_iff in E. exfalso. exact (Qlt_not_le _ _ H E).
Qed.

(** ** The methods in closed form *)

Section MethodEquations.
Context {drv : Driver}.

Lemma insert_row_create (i : Z) (data : StudentCreate) :
  insert_row i (create_dict data) =
  Returned (mkStudent i (c_last_name data) (c_first_name data)
                      (c_faculty data) (c_course data) (c_grade data)).
Proof. reflexivity. Qed.

Lemma create_student_eq (data : StudentCreate) (db : Store) :
  let r := mkStudent (next_rowid db) (c_last_name data) (c_first_name data)
                     (c_faculty data) (c_course data) (c_grade data) in
  StudentDB.create_student data db = (Returned r, db ++ [r]).
Proof.
  intros r.
  unfold StudentDB.create_student, with_session, bind, session_add,
    session_commit, session_refresh, detached.
  cbn -[next_rowid select_by_id].
  change (next_rowid db) with (id r).
  change (mkStudent (id r) _ _ _ _ _) with r.
  rewrite (select_inserted db r eq_refl). reflexivity.
Qed.

Lemma get_student_eq (i : Z) (db : Store) :
  StudentDB.get_student i db = (Returned (select_by_id i db), db).
Proof.
  unfold StudentDB.get_student, with_session, bind, session_get, detached, ret.
  cbn -[select_by_id].
  destruct (select_by_id i db); reflexivity.
Qed.

Lemma delete_student_eq (i : Z) (db : Store) :
  StudentDB.delete_student i db =
  match select_by_id i db with
  | Some _ => (Returned true, delete_by_id i db)
  | None => (Returned false, db)
  end.
Proof.
  unfold StudentDB.delete_student, with_session, bind, session_get,
    session_delete, session_commit, modify, ret.
  cbn -[select_by_id].
  destruct (select_by_id i db); reflexivity.
Qed.

Lemma for_each_setattr (l p : list (attr * pyval)) (db : Store)
      (k : option Z) (ld : option Student) (d : bool) :
  for_each l (setattr 0%nat) (mkSession db [mkEntity k ld p d]) =
  (Returned tt, mkSession db [mkEntity k ld (p ++ l) d]).
Proof.
  revert p. induction l as [|kv l IH]; intros p; simpl.
  - rewrite app_nil_r. reflexivity.
  - unfold bind, setattr, modify. simpl.
    rewrite IH, <- app_assoc. reflexivity.
Qed.

Lemma update_student_eq (i : Z) (data : StudentUpdate) (db : Store) :
  StudentDB.update_student i data db =
  match select_by_id i db with
  | None => (Returned None, db)
  | Some _ =>
      match bind_updates (update_dict data) with
      | Raised e => (Raised e, db)
      | Returned f =>
          match select_by_id i (update_by_id i f db) with
          | Some r => (Returned (Some r), update_by_id i f db)
          | None => (Raised InvalidRequestError, update_by_id i f db)
          end
      end
  end.
Proof.
  unfold StudentDB.update_student, with_session, bind, session_get.
  cbn -[select_by_id for_each update_dict].
  destruct (select_by_id i db) as [r|]; [|reflexivity].
  rewrite for_each_setattr.
  unfold session_commit, session_refresh, detached, ret.
  cbn -[select_by_id update_dict bind_updates update_by_id].
  destruct (bind_updates (update_dict data)) as [f|e]; [|reflexivity].
  cbn -[select_by_id update_dict update_by_id].
  destruct (select_by_id i (update_by_id i f db)); reflexivity.
Qed.
End MethodEquations.

(** ** Partial updates *)

Section Patches.
Context {drv : Driver}.

Lemma bind_updates_null (data : StudentUpdate) :
  has_null data = true ->
  bind_updates (update_dict data) = Raised IntegrityError.
Proof.
  destruct data as [[[ln|]|] [[fn|]|] [[fa|]|] [[co|]|] [[g|]|]];
    intros H; try discriminate H; reflexivity.
Qed.





(** An update whose body carries a [null], on an id that has a record. *)
Lemma update_student_null (i : Z) (data : StudentUpdate) (db : Store) (r : Student) :
  select_by_id i db = Some r ->
  has_null data = true ->
  StudentDB.update_student i data db = (Raised IntegrityError, db).
Proof.
  intros Hsel Hn. rewrite update_student_eq, Hsel, (bind_updates_null data Hn).
  reflexivity.
Qed.

Lemma update_student_absent (i : Z) (data : StudentUpdate) (db : Store) :
  select_by_id i db = None ->
  StudentDB.update_student i data db = (Returned None, db).
Proof. intros Hsel. rewrite update_student_eq, Hsel. reflexivity. Qed.

Lemma existing (i : Z) (db : Store) (r : Student) :
  fst (StudentDB.get_student i db) = Returned (Some r) <-> select_by_id i db = Some r.
Proof.
  rewrite get_student_eq. simpl. split; intros H; congruence.
Qed.

End Patches.

(** ** Batch insertion *)

Section Batch.
Context {drv : Driver}.

Local Abbreviation labels := [k_last_name; k_first_name; k_faculty; k_course; k_grade] (only parsing).

Lemma getattr_positional (row : list pyval) :
  getattr (combine labels row) k_last_name = nth 0 row PNone
  /\ getattr (combine labels row) k_first_name = nth 1 row PNone
  /\ getattr (combine labels row) k_faculty = nth 2 row PNone
  /\ getattr (combine labels row) k_course = nth 3 row PNone
  /\ getattr (combine labels row) k_grade = nth 4 row PNone.
Proof.
  destruct row as [|c0 [|c1 [|c2 [|c3 [|c4 rest]]]]]; repeat split; reflexivity.
Qed.

(** [INSERT] of a row of cells, stated on the cells. *)
Lemma insert_row_cells (i : Z) (row : list pyval) :
  insert_row i (combine labels row) =
  obind (to_float (nth 4 row PNone)) (fun g =>
  obind (not_null (text_param (nth 0 row PNone))) (fun ln =>
  obind (not_null (text_param (nth 1 row PNone))) (fun fn =>
  obind (not_null (text_param (nth 2 row PNone))) (fun fa =>
  obind (not_null (text_param (nth 3 row PNone))) (fun co =>
  obind (not_null g) (fun g' =>
  Returned (mkStudent i ln fn fa co g'))))))).
Proof.
  unfold insert_row.
  destruct (getattr_positional row) as (-> & -> & -> & -> & ->).
  reflexivity.
Qed.







Lemma insert_row_inv (i : Z) (row : list pyval) (r : Student) :
  insert_row i (combine labels row) = Returned r -> id r = i /\ positional row r.
Proof.
  rewrite insert_row_cells. unfold positional.
  destruct (to_float (nth 4 row PNone)) as [[q|]|e]; simpl;
    destruct (text_param (nth 0 row PNone)); simpl; try discriminate;
    destruct (text_param (nth 1 row PNone)); simpl; try discriminate;
    destruct (text_param (nth 2 row PNone)); simpl; try discriminate;
    destruct (text_param (nth 3 row PNone)); simpl; try discriminate.
  intros H. injection H as <-. simpl. repeat split; reflexivity.
Qed.

Lemma for_each_add (kw : list pyval -> list (attr * pyval))
      (l : list (list pyval)) (db : Store) (es : list Entity) :
  for_each l (fun row => bind (session_add (kw row)) (fun _ => ret tt))
           (mkSession db es) =
  (Returned tt,
   mkSession db (es ++ map (fun row => mkEntity None None (kw row) false) l)).
Proof.
  revert es. induction l as [|row l IH]; intros es; simpl.
  - rewrite app_nil_r. reflexivity.
  - unfold bind at 1. unfold bind at 1. unfold session_add, ret. simpl.
    rewrite IH, <- app_assoc. reflexivity.
Qed.

Lemma flush_rows_returned (l : list (list pyval)) (w w' : Store) (es' : list Entity) :
  flush w (map (fun row => mkEntity None None (combine labels row) false) l)
  = Returned (w', es') ->
  exists new, w' = w ++ new /\ Forall2 positional l new.
Proof.
  revert w w' es'. induction l as [|row l IH]; intros w w' es'; cbn -[combine insert_row next_rowid].
  - intros H. injection H as <- <-. exists []. rewrite app_nil_r. auto.
  - unfold flush_entity. cbn -[combine insert_row next_rowid flush].
    destruct (insert_row (next_rowid w) (combine labels row)) as [r|e] eqn:E;
      cbn -[combine insert_row next_rowid flush]; [|discriminate].
    destruct (flush (w ++ [r]) _) as [[w'' es'']|e] eqn:F; cbn -[combine insert_row next_rowid flush]; [|discriminate].
    intros H. injection H as <- <-.
    destruct (IH _ _ _ F) as (new & -> & Hall).
    exists (r :: new). split.
    + rewrite <- app_assoc. reflexivity.
    + constructor; [|exact Hall]. exact (proj2 (insert_row_inv _ _ _ E)).
Qed.



(** [insert_from_csv] in closed form. *)
Lemma insert_from_csv_eq (df : DataFrame string) (db : Store) :
  StudentDB.insert_from_csv df db =
  if (List.length (columns df) =? 5)%nat
  then
    match flush db (map (fun row => mkEntity None None (combine labels row) false)
                        (rows df)) with
    | Returned (w, _) => (Returned tt, w)
    | Raised e => (Raised e, db)
    end
  else (Raised ValueError, db).
Proof.
  unfold StudentDB.insert_from_csv, set_columns.
  change (List.length [k_last_name; k_first_name; k_faculty; k_course; k_grade])
    with 5%nat.
  rewrite Nat.eqb_sym.
  destruct (List.length (columns df) =? 5)%nat; [|reflexivity].
  unfold with_session, bind at 1. simpl rows.
  rewrite for_each_add. simpl app.
  unfold session_commit. simpl. unfold to_dict. simpl.
  destruct (flush db _) as [[w es]|e]; reflexivity.
Qed.
End Batch.

(** ** Queries *)

Create HintDb read_only.

Lemma preserves_ret {A : Type} (a : A) : preserves (ret a).
Proof. intros s. reflexivity. Qed.

Lemma preserves_bind {A B : Type} (m : M Session A) (f : A -> M Session B) :
  preserves m -> (forall a, preserves (f a)) -> preserves (bind m f).
Proof.
  intros Hm Hf s. unfold bind.
  specialize (Hm s). destruct (m s) as [[a|e] s']; simpl in *.
  - rewrite (Hf a s'). exact Hm.
  - exact Hm.
Qed.

Lemma preserves_session_get (i : Z) : preserves (session_get i).
Proof.
  intros s. unfold session_get.
  destruct (select_by_id i (database s)); reflexivity.
Qed.

Lemma preserves_detached (h : handle) : preserves (detached h).
Proof.
  intros s. unfold detached.
  destruct (nth_error (entities s) h) as [[k [r|] p d]|]; reflexivity.
Qed.

Lemma preserves_session_scalars (c : Student -> bool) : preserves (session_scalars c).
Proof. intros s. reflexivity. Qed.

Lemma preserves_session_execute_distinct (c : Student -> string) :
  preserves (session_execute_distinct c).
Proof. intros s. reflexivity. Qed.

Lemma preserves_session_scalar_avg (c : Student -> Q) (w : Student -> bool) :
  preserves (session_scalar_avg c w).
Proof. intros s. reflexivity. Qed.

#[local] Hint Resolve preserves_ret preserves_bind preserves_session_get
  preserves_detached preserves_session_scalars preserves_session_execute_distinct
  preserves_session_scalar_avg : read_only.

Lemma with_session_preserves {A : Type} (m : M Session A) (db : Store) :
  preserves m -> snd (with_session m db) = db.
Proof.
  intros H. unfold with_session.
  specialize (H (mkSession db [])).
  destruct (m (mkSession db [])) as [o s]. exact H.
Qed.

Lemma get_students_with_low_grade_eq (c : string) (db : Store) :
  StudentDB.get_students_with_low_grade c db =
  (Returned (filter (fun r => (course r =? c)%string && Qltb (grade r) 30) db), db).
Proof. reflexivity. Qed.

Lemma get_avg_grade_by_faculty_eq (name : string) (db : Store) :
  StudentDB.get_avg_grade_by_faculty name db =
  (Returned
     match grades_of name db with
     | [] => None
     | l => if Qeq_bool (mean l) 0 then None else Some (round2 (mean l))
     end,
   db).
Proof.
  unfold StudentDB.get_avg_grade_by_faculty, with_session, bind,
    session_scalar_avg, ret, grades_of, mean, sql_avg, truthy.
  cbn [database snd fst].
  destruct (map grade (filter _ db)) as [|g l]; [reflexivity|].
  destruct (Qeq_bool _ 0); reflexivity.
Qed.

(** What [get_avg_grade_by_faculty] computes: the rounded mean of the grades
    of the faculty when that mean is not zero, no value otherwise. *)
Lemma get_avg_grade_by_faculty_cases (name : string) (db : Store) :
  (grades_of name db = [] ->
   fst (StudentDB.get_avg_grade_by_faculty name db) = Returned None)
  /\ (grades_of name db <> [] -> ~ (mean (grades_of name db) == 0)%Q ->
      fst (StudentDB.get_avg_grade_by_faculty name db)
      = Returned (Some (round2 (mean (grades_of name db)))))
  /\ (grades_of name db <> [] -> (mean (grades_of name db) == 0)%Q ->
      fst (StudentDB.get_avg_grade_by_faculty name db) = Returned None).
Proof.
  rewrite get_avg_grade_by_faculty_eq. cbn [fst].
  destruct (grades_of name db) as [|g l] eqn:E.
  - repeat split; intros; try reflexivity; congruence.
  - repeat split; intros; try discriminate.
    + destruct (Qeq_bool (mean (g :: l)) 0) eqn:B; [|reflexivity].
      apply Qeq_bool_iff in B. contradiction.
    + apply Qeq_bool_iff in H0. rewrite H0. reflexivity.
Qed.

Lemma sum_of_zeros (l : list Q) :
  Forall (fun g => g == 0)%Q l -> (fold_right Qplus 0 l == 0)%Q.
Proof.
  induction 1 as [|g l Hg _ IH]; simpl; [reflexivity|].
  rewrite Hg, IH. reflexivity.
Qed.

(** A faculty whose records all have grade 0 reads as a faculty without
    records. *)
Lemma get_avg_grade_by_faculty_zero (name : string) (db : Store) :
  grades_of name db <> [] ->
  Forall (fun g => g == 0)%Q (grades_of name db) ->
  fst (StudentDB.get_avg_grade_by_faculty name db) = Returned None.
Proof.
  intros Hne Hz.
  apply (proj2 (proj2 (get_avg_grade_by_faculty_cases name db)) Hne).
  unfold mean, Qdiv. rewrite (sum_of_zeros _ Hz). apply Qmult_0_l.
Qed.

(** ** Rounding *)



(** * The claims *)

Section Claims.
Context {drv : Driver}.

(** C1: [get_avg_grade_by_faculty] on a table whose only record of faculty
    "Math" has grade 0: a matching record exists, its grade is 0, and the
    method returns [None], the value it also returns for a faculty without
    records, rather than 0.0. *)
Theorem avg_grade_zero_reads_as_no_data :
  fst (StudentDB.get_students_by_faculty "Math" [zero_graded]) = Returned [zero_graded]
  /\ grade zero_graded = 0%Q
  /\ StudentDB.get_avg_grade_by_faculty "Math" [zero_graded]
     = (Returned None, [zero_graded])
  /\ StudentDB.get_avg_grade_by_faculty "Math" []
     = (Returned None, []).
Proof. repeat split; reflexivity. Qed.



(** C4: on an id that has a record, [update_student] with an empty body
    returns the record as stored and leaves the table as it was. *)
Theorem update_empty_changes_nothing (i : Z) (db : Store) (r : Student) :
  fst (StudentDB.get_student i db) = Returned (Some r) ->
  StudentDB.update_student i empty_update db = (Returned (Some r), db).
Proof.
  intros H. apply existing in H.
  rewrite update_student_eq, H. cbn [update_dict empty_update item app
    u_last_name u_first_name u_faculty u_course u_grade bind_updates].
  rewrite update_by_id_nothing, H. reflexivity.
Qed.

(** C7: on an id that has a record, [delete_student] returns [True], removes
    the records of that id and no other, and [get_student] on the id then
    returns [None]. *)
Theorem delete_then_get_not_found (i : Z) (db : Store) (r : Student) :
  fst (StudentDB.get_student i db) = Returned (Some r) ->
  exists db',
    StudentDB.delete_student i db = (Returned true, db')
    /\ (forall x, In x db' <-> In x db /\ id x <> i)
    /\ StudentDB.get_student i db' = (Returned None, db').
Proof.
  intros H. apply existing in H.
  exists (delete_by_id i db). rewrite delete_student_eq, H.
  split; [reflexivity|]. split.
  - intros x. unfold delete_by_id. rewrite filter_In, negb_true_iff, Z.eqb_neq.
    reflexivity.
  - rewrite get_student_eq, select_deleted. reflexivity.
Qed.

(** C8: [get_students_with_low_grade] returns the records of the table
    whose course is the given string and whose grade is below 30, and no
    other. *)
Theorem low_grade_exact (course_name : string) (db : Store) :
  exists l,
    StudentDB.get_students_with_low_grade course_name db = (Returned l, db)
    /\ forall r, In r l <-> In r db /\ course r = course_name /\ (grade r < 30)%Q.
Proof.
  eexists. split; [apply get_students_with_low_grade_eq|].
  intros r. rewrite filter_In, andb_true_iff, String.eqb_eq, Qltb_lt.
  reflexivity.
Qed.

(** C10: each of the six read-only methods leaves the table as it was. *)
Theorem reads_leave_store_unchanged (db : Store) (i : Z)
        (faculty_name course_name : string) :
  snd (StudentDB.get_all_students db) = db
  /\ snd (StudentDB.get_student i db) = db
  /\ snd (StudentDB.get_students_by_faculty faculty_name db) = db
  /\ snd (StudentDB.get_unique_courses db) = db
  /\ snd (StudentDB.get_avg_grade_by_faculty faculty_name db) = db
  /\ snd (StudentDB.get_students_with_low_grade course_name db) = db.
Proof.
  repeat split; apply with_session_preserves; auto with read_only.
  - apply preserves_bind; [auto with read_only|].
    intros [h|]; auto with read_only.
Qed.


End Claims.

(** * The claims on sample data *)

(** The sample frame imported into an empty table. *)
Example insert_sample_frame :
  StudentDB.insert_from_csv (drv := sample_driver) sample_frame []
  = (Returned tt, [ivanov; petrov]).
Proof. reflexivity. Qed.

(** Create Ivanov, read him back under id 1, delete him, read again. *)
Example scenario_create_get_delete :
  let data := mkStudentCreate "Ivanov" "Petr" "CS" "2024" (171 # 2) in
  App.POST_students (drv := sample_driver) data [] = (ok (StudentOut ivanov), [ivanov])
  /\ App.GET_student 1 [ivanov] = (ok (StudentOut ivanov), [ivanov])
  /\ App.DELETE_student (drv := sample_driver) 1 [ivanov]
     = (ok (JObj [("status", JStr "deleted")]), [])
  /\ App.GET_student 1 [] = (not_found, []).
Proof. repeat split; reflexivity. Qed.


(** C4 on the table of Ivanov and Petrov: id 2, empty body. *)
Lemma update_empty_changes_nothing_witness :
  fst (StudentDB.get_student 2 [ivanov; petrov]) = Returned (Some petrov)
  /\ StudentDB.update_student (drv := sample_driver) 2 empty_update [ivanov; petrov]
     = (Returned (Some petrov), [ivanov; petrov]).
Proof.
  split; [reflexivity|].
  apply (update_empty_changes_nothing (drv := sample_driver) 2 [ivanov; petrov] petrov).
  reflexivity.
Defined.

(** C7 on the table of Ivanov and Petrov: id 1 is deleted. *)
Lemma delete_then_get_not_found_witness :
  fst (StudentDB.get_student 1 [ivanov; petrov]) = Returned (Some ivanov)
  /\ exists db',
       StudentDB.delete_student (drv := sample_driver) 1 [ivanov; petrov]
       = (Returned true, db')
       /\ (forall x, In x db' <-> In x [ivanov; petrov] /\ id x <> 1)
       /\ StudentDB.get_student 1 db' = (Returned None, db').
Proof.
  split; [reflexivity|].
  apply (delete_then_get_not_found (drv := sample_driver) 1 [ivanov; petrov] ivanov).
  reflexivity.
Defined.






(** * Further properties *)

(** ** Rows keep their id *)

Section Keys.
Context {drv : Driver}.

Lemma insert_row_id (i : Z) (kw : list (attr * pyval)) (r : Student) :
  insert_row i kw = Returned r -> id r = i.
Proof.
  unfold insert_row.
  destruct (to_float (getattr kw k_grade)) as [[q|]|e]; simpl;
    destruct (text_param (getattr kw k_last_name)); simpl; try discriminate;
    destruct (text_param (getattr kw k_first_name)); simpl; try discriminate;
    destruct (text_param (getattr kw k_faculty)); simpl; try discriminate;
    destruct (text_param (getattr kw k_course)); simpl; try discriminate.
  intros H. injection H as <-. reflexivity.
Qed.

Lemma bind_column_id (k : attr) (v : pyval) (f : Student -> Student) :
  bind_column k v = Returned f -> forall r, id (f r) = id r.
Proof.
  destruct k; simpl.
  1-4: destruct (text_param v); simpl; try discriminate;
       intros H; injection H as <-; reflexivity.
  destruct (to_float v) as [[q|]|e]; simpl; try discriminate.
  intros H; injection H as <-; reflexivity.
Qed.

Lemma bind_updates_id (l : list (attr * pyval)) (f : Student -> Student) :
  bind_updates l = Returned f -> forall r, id (f r) = id r.
Proof.
  revert f. induction l as [|[k v] l IH]; intros f; simpl.
  - intros H; injection H as <-. reflexivity.
  - destruct (bind_column k v) as [g|e] eqn:E; simpl; [|discriminate].
    destruct (bind_updates l) as [h|e] eqn:F; simpl; [|discriminate].
    intros H; injection H as <-. intros r.
    rewrite (IH h eq_refl), (bind_column_id k v g E). reflexivity.
Qed.

Lemma ids_updated (i : Z) (f : Student -> Student) (db : Store) :
  (forall r, id (f r) = id r) -> map id (update_by_id i f db) = map id db.
Proof.
  intros Hid. unfold update_by_id. rewrite map_map. apply map_ext.
  intros r. destruct (id r =? i); [apply Hid|reflexivity].
Qed.

Lemma ids_deleted (i : Z) (db : Store) :
  map id (delete_by_id i db) = filter (fun z => negb (z =? i)) (map id db).
Proof.
  unfold delete_by_id. induction db as [|x db IH]; simpl; [reflexivity|].
  destruct (id x =? i); simpl; [exact IH|]. rewrite IH. reflexivity.
Qed.

Lemma max_rowid_In (db : Store) (m : Z) :
  max_rowid db = Some m -> exists r, In r db /\ id r = m.
Proof.
  revert m. induction db as [|x db IH]; intros m; simpl; [discriminate|].
  destruct (max_rowid db) as [m'|].
  - intros H; injection H as <-.
    destruct (Z.max_spec (id x) m') as [[_ ->]|[_ ->]].
    + destruct (IH m' eq_refl) as (r & Hin & Hr). exists r. auto.
    + exists x. auto.
  - intros H; injection H as <-. exists x. auto.
Qed.

Lemma next_rowid_positive (db : Store) :
  Forall (fun r => 1 <= id r) db -> 1 <= next_rowid db.
Proof.
  intros Hall. unfold next_rowid.
  destruct (max_rowid db) as [m|] eqn:E; [|lia].
  destruct (max_rowid_In db m E) as (r & Hin & <-).
  rewrite Forall_forall in Hall. specialize (Hall r Hin). lia.
Qed.

Lemma primary_key_inserted (db : Store) (r : Student) :
  id r = next_rowid db -> primary_key db -> primary_key (db ++ [r]).
Proof.
  intros E [Hnd Hpos]. split.
  - rewrite map_app. simpl.
    apply NoDup_app; [exact Hnd|constructor; [intros []|constructor]|].
    intros z Hz [<-|[]].
    apply in_map_iff in Hz. destruct Hz as (x & Hx & Hin).
    apply next_rowid_fresh in Hin. lia.
  - apply Forall_app. split; [exact Hpos|].
    constructor; [|constructor].
    rewrite E. apply next_rowid_positive, Hpos.
Qed.

Lemma primary_key_deleted (i : Z) (db : Store) :
  primary_key db -> primary_key (delete_by_id i db).
Proof.
  intros [Hnd Hpos]. split.
  - rewrite ids_deleted. apply NoDup_filter, Hnd.
  - unfold delete_by_id. rewrite Forall_forall in *.
    intros x Hx. apply filter_In in Hx. apply Hpos, Hx.
Qed.

Lemma primary_key_updated (i : Z) (f : Student -> Student) (db : Store) :
  (forall r, id (f r) = id r) -> primary_key db -> primary_key (update_by_id i f db).
Proof.
  intros Hid [Hnd Hpos]. split.
  - rewrite (ids_updated i f db Hid). exact Hnd.
  - unfold update_by_id. rewrite Forall_forall in *.
    intros x Hx. apply in_map_iff in Hx. destruct Hx as (y & <- & Hy).
    destruct (id y =? i); [rewrite Hid|]; apply Hpos, Hy.
Qed.

Lemma flush_entity_primary_key (w w' : Store) (e e' : Entity) :
  flush_entity w e = Returned (w', e') -> primary_key w -> primary_key w'.
Proof.
  unfold flush_entity. destruct (pk e) as [i|].
  - destruct (deleted e).
    + intros H; injection H as <- _. apply primary_key_deleted.
    + destruct (bind_updates (pending e)) as [f|x] eqn:E; simpl; [|discriminate].
      intros H; injection H as <- _.
      apply primary_key_updated, (bind_updates_id _ f E).
  - destruct (insert_row (next_rowid w) (pending e)) as [r|x] eqn:E; simpl;
      [|discriminate].
    intros H; injection H as <- _.
    apply primary_key_inserted, (insert_row_id _ _ _ E).
Qed.

Lemma flush_primary_key (es : list Entity) (w w' : Store) (es' : list Entity) :
  flush w es = Returned (w', es') -> primary_key w -> primary_key w'.
Proof.
  revert w w' es'. induction es as [|e es IH]; intros w w' es'; simpl.
  - intros H; injection H as <- _. auto.
  - destruct (flush_entity w e) as [[w1 e1]|x] eqn:E; simpl; [|discriminate].
    destruct (flush w1 es) as [[w2 es2]|x] eqn:F; simpl; [|discriminate].
    intros H; injection H as <- _. intros Hw.
    exact (IH _ _ _ F (flush_entity_primary_key _ _ _ _ E Hw)).
Qed.
End Keys.

(** ** Listings and lookups *)

Lemma filter_all {A : Type} (l : list A) : filter (fun _ => true) l = l.
Proof. induction l as [|x l IH]; simpl; [|rewrite IH]; reflexivity. Qed.

Lemma get_all_students_eq (db : Store) :
  StudentDB.get_all_students db = (Returned db, db).
Proof.
  unfold StudentDB.get_all_students, with_session, session_scalars. simpl.
  rewrite filter_all. reflexivity.
Qed.

Lemma distinct_In (l : list string) (x : string) : In x (distinct l) <-> In x l.
Proof.
  induction l as [|y l IH]; simpl; [reflexivity|].
  rewrite filter_In, negb_true_iff, String.eqb_neq, IH.
  destruct (string_dec y x) as [->|Hne]; [tauto|].
  split; [tauto|]. intros [H|H]; [tauto|]. right. split; [exact H|congruence].
Qed.

Lemma distinct_NoDup (l : list string) : NoDup (distinct l).
Proof.
  induction l as [|y l IH]; simpl; constructor.
  - rewrite filter_In, negb_true_iff, String.eqb_neq. tauto.
  - apply NoDup_filter, IH.
Qed.

Lemma select_other_deleted (i j : Z) (db : Store) :
  j <> i -> select_by_id j (delete_by_id i db) = select_by_id j db.
Proof.
  intros Hne. unfold select_by_id, delete_by_id.
  induction db as [|x db IH]; simpl; [reflexivity|].
  destruct (id x =? i) eqn:E; simpl.
  - apply Z.eqb_eq in E.
    destruct (id x =? j) eqn:E'; [apply Z.eqb_eq in E'; lia|exact IH].
  - destruct (id x =? j); [reflexivity|exact IH].
Qed.

Lemma select_kept_by_app (db new : Store) : keeps_records db (db ++ new).
Proof. intros j r H. rewrite select_by_id_app, H. reflexivity. Qed.

Lemma delete_absent (i : Z) (db : Store) :
  ~ In i (map id db) -> delete_by_id i db = db.
Proof.
  unfold delete_by_id. induction db as [|x db IH]; simpl; [reflexivity|].
  intros H. destruct (id x =? i) eqn:E.
  - apply Z.eqb_eq in E. tauto.
  - simpl. rewrite IH; [reflexivity|tauto].
Qed.

Lemma delete_present_length (i : Z) (db : Store) :
  NoDup (map id db) -> In i (map id db) ->
  S (List.length (delete_by_id i db)) = List.length db.
Proof.
  induction db as [|x db IH]; simpl; [tauto|].
  intros Hnd Hin. inversion Hnd as [|? ? Hx Hnd']; subst.
  unfold delete_by_id in *. simpl.
  destruct (id x =? i) eqn:E; simpl.
  - apply Z.eqb_eq in E. subst i.
    fold (delete_by_id (id x) db). rewrite (delete_absent _ _ Hx). reflexivity.
  - apply Z.eqb_neq in E. destruct Hin as [Hin|Hin]; [contradiction|].
    rewrite (IH Hnd' Hin). reflexivity.
Qed.

Lemma select_by_key (db : Store) (x : Student) :
  NoDup (map id db) -> In x db -> select_by_id (id x) db = Some x.
Proof.
  unfold select_by_id. induction db as [|y db IH]; simpl; [tauto|].
  intros Hnd Hin. inversion Hnd as [|? ? Hy Hnd']; subst.
  destruct Hin as [->|Hin].
  - rewrite Z.eqb_refl. reflexivity.
  - destruct (id y =? id x) eqn:E; [|exact (IH Hnd' Hin)].
    apply Z.eqb_eq in E. exfalso. apply Hy. rewrite E. apply in_map, Hin.
Qed.



Section MoreEquations.
Context {drv : Driver}.

(** The table after [update_student], whatever the body and the outcome. *)
Lemma update_student_table (i : Z) (data : StudentUpdate) (db : Store) :
  snd (StudentDB.update_student i data db) = db
  \/ exists f, (forall r, id (f r) = id r)
               /\ snd (StudentDB.update_student i data db) = update_by_id i f db.
Proof.
  rewrite update_student_eq.
  destruct (select_by_id i db); [|left; reflexivity].
  destruct (bind_updates (update_dict data)) as [f|e] eqn:E; [|left; reflexivity].
  right. exists f. split; [exact (bind_updates_id _ f E)|].
  destruct (select_by_id i (update_by_id i f db)); reflexivity.
Qed.

(** The table after [insert_from_csv], whatever the frame and the outcome. *)
Lemma insert_from_csv_table (df : DataFrame string) (db : Store) :
  (exists e, StudentDB.insert_from_csv df db = (Raised e, db))
  \/ exists new,
       StudentDB.insert_from_csv df db = (Returned tt, db ++ new)
       /\ Forall2 positional (rows df) new
       /\ (primary_key db -> primary_key (db ++ new)).
Proof.
  rewrite insert_from_csv_eq.
  destruct (List.length (columns df) =? 5)%nat; [|left; eexists; reflexivity].
  destruct (flush db _) as [[w es]|e] eqn:F; [|left; eexists; reflexivity].
  right. destruct (flush_rows_returned _ _ _ _ F) as (new & -> & Hall).
  exists new. split; [reflexivity|]. split; [exact Hall|].
  exact (flush_primary_key _ _ _ _ F).
Qed.
End MoreEquations.

(** ** The further statements *)

Section Extras.
Context {drv : Driver}.

(** X1: [get_unique_courses] returns every course that some record has, each
    exactly once, and nothing else. *)
Theorem unique_courses_once (db : Store) :
  exists l,
    StudentDB.get_unique_courses db = (Returned l, db)
    /\ NoDup l
    /\ forall c, In c l <-> exists r, In r db /\ course r = c.
Proof.
  exists (distinct (map course db)). split; [reflexivity|].
  split; [apply distinct_NoDup|].
  intros c. rewrite distinct_In, in_map_iff.
  split; intros (r & H1 & H2); exists r; auto.
Qed.

(** X2: [get_students_by_faculty] returns the records of the table whose
    faculty is the given string and no other; when it returns none,
    [get_avg_grade_by_faculty] returns [None] for that faculty. *)
Theorem students_by_faculty_exact (faculty_name : string) (db : Store) :
  exists l,
    StudentDB.get_students_by_faculty faculty_name db = (Returned l, db)
    /\ (forall r, In r l <-> In r db /\ faculty r = faculty_name)
    /\ (l = [] ->
        fst (StudentDB.get_avg_grade_by_faculty faculty_name db) = Returned None).
Proof.
  exists (filter (fun r => (faculty r =? faculty_name)%string) db).
  split; [reflexivity|]. split.
  - intros r. rewrite filter_In, String.eqb_eq. reflexivity.
  - intros H.
    apply (proj1 (get_avg_grade_by_faculty_cases faculty_name db)).
    unfold grades_of. rewrite H. reflexivity.
Qed.

(** X3: the primary-key constraint holds of the empty table and is kept by
    every method that writes, whatever its arguments and its outcome. *)
Theorem writes_keep_primary_key (db : Store) :
  primary_key db ->
  (forall data, primary_key (snd (StudentDB.create_student data db)))
  /\ (forall i data, primary_key (snd (StudentDB.update_student i data db)))
  /\ (forall i, primary_key (snd (StudentDB.delete_student i db)))
  /\ (forall df, primary_key (snd (StudentDB.insert_from_csv df db)))
  /\ primary_key [].
Proof.
  intros Hdb. split; [|split; [|split; [|split]]].
  - intros data. pose proof (create_student_eq data db) as E. cbv zeta in E.
    rewrite E. apply primary_key_inserted; [reflexivity|exact Hdb].
  - intros i data.
    destruct (update_student_table i data db) as [->|(f & Hid & ->)];
      [exact Hdb|apply primary_key_updated; assumption].
  - intros i. rewrite delete_student_eq.
    destruct (select_by_id i db); [apply primary_key_deleted|]; exact Hdb.
  - intros df.
    destruct (insert_from_csv_table df db) as [[e ->]|(new & -> & _ & H)];
      [exact Hdb|exact (H Hdb)].
  - split; constructor.
Qed.

(** X4: under the primary-key constraint, every record that
    [get_all_students] lists is the record [get_student] returns for its
    id. *)
Theorem listed_records_are_readable (db : Store) (x : Student) :
  primary_key db ->
  (exists l, fst (StudentDB.get_all_students db) = Returned l /\ In x l) ->
  StudentDB.get_student (id x) db = (Returned (Some x), db).
Proof.
  intros [Hnd _] (l & Hl & Hin).
  rewrite get_all_students_eq in Hl. injection Hl as <-.
  rewrite get_student_eq, (select_by_key db x Hnd Hin). reflexivity.
Qed.



(** X7: [update_student] never adds, removes or renumbers a row: the ids of
    the table, in order, are the same after the call as before, whatever the
    id, the body and the outcome. *)
Theorem update_keeps_ids (i : Z) (data : StudentUpdate) (db : Store) :
  map id (snd (StudentDB.update_student i data db)) = map id db.
Proof.
  destruct (update_student_table i data db) as [->|(f & Hid & ->)];
    [reflexivity|exact (ids_updated i f db Hid)].
Qed.


(** X9: [update_student] and [delete_student] on one id leave the records of
    every other id as they were, whatever the body and the outcome. *)
Theorem other_ids_untouched (i j : Z) (data : StudentUpdate) (db : Store) :
  j <> i ->
  fst (StudentDB.get_student j (snd (StudentDB.update_student i data db)))
  = fst (StudentDB.get_student j db)
  /\ fst (StudentDB.get_student j (snd (StudentDB.delete_student i db)))
     = fst (StudentDB.get_student j db).
Proof.
  intros Hne. rewrite !get_student_eq. cbn [fst]. split.
  - destruct (update_student_table i data db) as [->|(f & Hid & ->)];
      [reflexivity|].
    rewrite (select_other_updated i j f db Hid Hne). reflexivity.
  - rewrite delete_student_eq.
    destruct (select_by_id i db); cbn [snd]; [|reflexivity].
    rewrite (select_other_deleted i j db Hne). reflexivity.
Qed.

(** X10: [insert_from_csv] never alters or removes a record that was in the
    table; when it returns, the table has as many more rows as the frame
    has; and a frame of five columns without rows is accepted and adds
    nothing. *)
Theorem import_keeps_existing_records (df : DataFrame string) (db : Store) :
  keeps_records db (snd (StudentDB.insert_from_csv df db))
  /\ (fst (StudentDB.insert_from_csv df db) = Returned tt ->
      List.length (snd (StudentDB.insert_from_csv df db))
      = (List.length db + List.length (rows df))%nat)
  /\ (List.length (columns df) = 5%nat -> rows df = [] ->
      StudentDB.insert_from_csv df db = (Returned tt, db)).
Proof.
  repeat split.
  - destruct (insert_from_csv_table df db) as [[e ->]|(new & -> & _)];
      [intros j r H; exact H|apply select_kept_by_app].
  - destruct (insert_from_csv_table df db) as [[e ->]|(new & -> & Hall & _)];
      [discriminate|].
    intros _. cbn [snd]. rewrite length_app.
    rewrite (Forall2_length Hall). reflexivity.
  - intros Hw Hrows. rewrite insert_from_csv_eq, Hw, Hrows. reflexivity.
Qed.

(** X11: under the primary-key constraint, [delete_student] on an id that
    has a record removes exactly one row. *)
Theorem delete_removes_one_row (i : Z) (db : Store) (r : Student) :
  primary_key db ->
  fst (StudentDB.get_student i db) = Returned (Some r) ->
  S (List.length (snd (StudentDB.delete_student i db))) = List.length db.
Proof.
  intros [Hnd _] H. apply existing in H.
  rewrite delete_student_eq, H. cbn [snd].
  apply delete_present_length; [exact Hnd|].
  apply select_by_id_In in H. destruct H as [Hin <-]. apply in_map, Hin.
Qed.


(** X13: once [DELETE /students/{id}] has answered 200, [GET], [PUT] and a
    second [DELETE] on that id all answer 404. *)
Theorem delete_then_404 (i : Z) (db : Store) (r : Student) :
  fst (StudentDB.get_student i db) = Returned (Some r) ->
  exists db',
    App.DELETE_student i db = (ok (JObj [("status", JStr "deleted")]), db')
    /\ App.GET_student i db' = (not_found, db')
    /\ (forall data, App.PUT_student i data db' = (not_found, db'))
    /\ App.DELETE_student i db' = (not_found, db').
Proof.
  intros H. apply existing in H.
  exists (delete_by_id i db).
  unfold App.DELETE_student, App.GET_student, App.PUT_student, App.serve,
    App.delete_student, App.get_student, App.update_student, bind.
  rewrite !delete_student_eq, get_student_eq, H, select_deleted.
  repeat split.
  intros data. rewrite (update_student_absent i data _ (select_deleted i db)).
  reflexivity.
Qed.

(** X14: [PUT /students/{id}] with a body that supplies some field as [null],
    on an id that has a record, answers 500 and leaves the table as it
    was. *)
Theorem put_null_answers_500 (i : Z) (data : StudentUpdate) (db : Store) (r : Student) :
  fst (StudentDB.get_student i db) = Returned (Some r) ->
  has_null data = true ->
  App.PUT_student i data db
  = (mkResponse 500 (PlainText "Internal Server Error"), db).
Proof.
  intros H Hn. apply existing in H.
  unfold App.PUT_student, App.serve, App.update_student, bind.
  rewrite (update_student_null i data db r H Hn). reflexivity.
Qed.

End Extras.

(** * The further statements on sample data *)

Lemma sample_primary_key : primary_key [ivanov; petrov; sidorov].
Proof.
  split.
  - repeat constructor; simpl; intuition discriminate.
  - repeat constructor; simpl; lia.
Defined.

(** X2 on the table of Ivanov, Petrov and Sidorov: no record has the
    faculty "Law". *)
Lemma students_by_faculty_exact_witness :
  exists l,
    StudentDB.get_students_by_faculty "Law" [ivanov; petrov; sidorov]
    = (Returned l, [ivanov; petrov; sidorov])
    /\ l = []
    /\ fst (StudentDB.get_avg_grade_by_faculty "Law" [ivanov; petrov; sidorov])
       = Returned None.
Proof.
  destruct (students_by_faculty_exact "Law" [ivanov; petrov; sidorov])
    as (l & Hl & _ & Havg).
  exists l. split; [exact Hl|].
  assert (E : l = []) by (injection Hl as <-; reflexivity).
  split; [exact E|exact (Havg E)].
Defined.

(** X3 on the table of Ivanov, Petrov and Sidorov. *)
Lemma writes_keep_primary_key_witness :
  primary_key [ivanov; petrov; sidorov]
  /\ primary_key
       (snd (StudentDB.delete_student (drv := sample_driver) 2 [ivanov; petrov; sidorov]))
  /\ primary_key
       (snd (StudentDB.insert_from_csv (drv := sample_driver) sample_frame
               [ivanov; petrov; sidorov])).
Proof.
  split; [exact sample_primary_key|].
  destruct (writes_keep_primary_key (drv := sample_driver)
              [ivanov; petrov; sidorov] sample_primary_key)
    as (_ & _ & Hdel & Hins & _).
  split; [exact (Hdel 2)|exact (Hins sample_frame)].
Defined.

(** X4 on the table of Ivanov, Petrov and Sidorov: Petrov is listed. *)
Lemma listed_records_are_readable_witness :
  primary_key [ivanov; petrov; sidorov]
  /\ (exists l, fst (StudentDB.get_all_students [ivanov; petrov; sidorov]) = Returned l
                /\ In petrov l)
  /\ StudentDB.get_student 2 [ivanov; petrov; sidorov]
     = (Returned (Some petrov), [ivanov; petrov; sidorov]).
Proof.
  assert (H : exists l, fst (StudentDB.get_all_students [ivanov; petrov; sidorov])
                        = Returned l /\ In petrov l).
  { eexists. split; [reflexivity|]. right; left; reflexivity. }
  split; [exact sample_primary_key|]. split; [exact H|].
  exact (listed_records_are_readable [ivanov; petrov; sidorov] petrov
           sample_primary_key H).
Defined.



(** X9 on the table of Ivanov and Petrov: writes to id 1, read of id 2. *)
Lemma other_ids_untouched_witness :
  2 <> 1
  /\ fst (StudentDB.get_student 2
            (snd (StudentDB.update_student (drv := sample_driver) 1 rename_and_regrade
                    [ivanov; petrov])))
     = fst (StudentDB.get_student 2 [ivanov; petrov])
  /\ fst (StudentDB.get_student 2
            (snd (StudentDB.delete_student (drv := sample_driver) 1 [ivanov; petrov])))
     = fst (StudentDB.get_student 2 [ivanov; petrov]).
Proof.
  assert (H : 2 <> 1) by lia.
  split; [exact H|].
  exact (other_ids_untouched (drv := sample_driver) 1 2 rename_and_regrade
           [ivanov; petrov] H).
Defined.

(** X10 on the sample frame, imported into the table of Sidorov. *)
Lemma import_keeps_existing_records_witness :
  fst (StudentDB.insert_from_csv (drv := sample_driver) sample_frame [sidorov])
  = Returned tt
  /\ List.length (snd (StudentDB.insert_from_csv (drv := sample_driver)
                         sample_frame [sidorov])) = 3%nat
  /\ keeps_records [sidorov]
       (snd (StudentDB.insert_from_csv (drv := sample_driver) sample_frame [sidorov])).
Proof.
  destruct (import_keeps_existing_records (drv := sample_driver) sample_frame [sidorov])
    as (Hkeep & Hlen & _).
  split; [reflexivity|]. split; [exact (Hlen eq_refl)|exact Hkeep].
Defined.

(** X11 on the table of Ivanov, Petrov and Sidorov: id 2 is deleted. *)
Lemma delete_removes_one_row_witness :
  primary_key [ivanov; petrov; sidorov]
  /\ fst (StudentDB.get_student 2 [ivanov; petrov; sidorov]) = Returned (Some petrov)
  /\ S (List.length (snd (StudentDB.delete_student (drv := sample_driver) 2
                            [ivanov; petrov; sidorov])))
     = 3%nat.
Proof.
  split; [exact sample_primary_key|]. split; [reflexivity|].
  exact (delete_removes_one_row (drv := sample_driver) 2 [ivanov; petrov; sidorov]
           petrov sample_primary_key eq_refl).
Defined.

(** X13 on the table of Ivanov and Petrov: id 1 is deleted. *)
Lemma delete_then_404_witness :
  fst (StudentDB.get_student 1 [ivanov; petrov]) = Returned (Some ivanov)
  /\ exists db',
       App.DELETE_student (drv := sample_driver) 1 [ivanov; petrov]
       = (ok (JObj [("status", JStr "deleted")]), db')
       /\ App.GET_student 1 db' = (not_found, db')
       /\ (forall data, App.PUT_student (drv := sample_driver) 1 data db'
                        = (not_found, db'))
       /\ App.DELETE_student (drv := sample_driver) 1 db' = (not_found, db').
Proof.
  split; [reflexivity|].
  apply (delete_then_404 (drv := sample_driver) 1 [ivanov; petrov] ivanov).
  reflexivity.
Defined.

(** X14 on the table of Ivanov and Petrov: the body [{"grade": null}] for
    id 2. *)
Lemma put_null_answers_500_witness :
  fst (StudentDB.get_student 2 [ivanov; petrov]) = Returned (Some petrov)
  /\ has_null null_grade = true
  /\ App.PUT_student (drv := sample_driver) 2 null_grade [ivanov; petrov]
     = (mkResponse 500 (PlainText "Internal Server Error"), [ivanov; petrov]).
Proof.
  split; [reflexivity|]. split; [reflexivity|].
  apply (put_null_answers_500 (drv := sample_driver) 2 null_grade [ivanov; petrov]
           petrov); reflexivity.
Defined.


(** The mean 55.25 of the grades 85.5 and 25 is returned as such. *)
Example avg_grade_of_cs :
  StudentDB.get_avg_grade_by_faculty "CS" [ivanov; petrov; sidorov]
  = (Returned (Some (221 # 4)), [ivanov; petrov; sidorov]).
Proof. reflexivity. Qed.
